(** * Prompt element catalogue of cmd-prompt-generator

    A shallow embedding of [src/lib/enum/promptElementType.ts] (the element
    type class, the backspace stripper, the catalogue) and of the
    [PromptElement] class, followed by the properties of the specification
    that were checked against it. *)

From Stdlib Require Import ZArith String Ascii List Lia DecimalString.
From stdpp Require Import base option list gmap.
From Equations Require Import Equations.
Import ListNotations.

Local Open Scope N_scope.

(** ** JavaScript strings

    A JavaScript string is a finite sequence of 16-bit UTF-16 code units.
    Code units are kept as binary naturals; no function below ever produces
    a unit that was not already present in its input or in a literal of the
    source, so the bound [< 65536] is never needed in a proof. *)

Abbreviation code_unit := N.
Abbreviation jsstring := (list N).

(** The code units of an ASCII literal of the source. *)
Fixpoint js (s : string) : jsstring :=
  match s with
  | EmptyString => []
  | String a s' => N_of_ascii a :: js s'
  end.
Arguments js s%_string : simpl never.

(** ['\b'], written [\x08] inside the regular expression. *)
Definition BS : code_unit := 8.

(** [str.indexOf(c)] for a one-unit search string: the index of the first
    occurrence, [-1] when there is none. *)
Fixpoint indexOf (str : jsstring) (c : code_unit) : Z :=
  match str with
  | [] => (-1)%Z
  | x :: rest =>
      if x =? c then 0%Z
      else let i := indexOf rest c in
           if (i =? -1)%Z then (-1)%Z else (i + 1)%Z
  end.

(** ** The regular expression [/.?\x08/]

    Without the [s] flag, [.] matches any single code unit except the four
    ECMAScript line terminators. *)
Definition LineTerminator (c : code_unit) : bool :=
  (c =? 10) || (c =? 13) || (c =? 8232) || (c =? 8233).

Definition dot (c : code_unit) : bool := negb (LineTerminator c).

(** The atom [\x08] tried at the head of [str]: the number of units it
    consumes. *)
Definition match_x08 (str : jsstring) : option nat :=
  match str with
  | c :: _ => if c =? BS then Some 1%nat else None
  | [] => None
  end.

(** [/.?\x08/] anchored at the head of [str].  The optional [.] is greedy: it
    first takes one unit, and gives it back only when [\x08] then fails. *)
Definition match_here (str : jsstring) : option nat :=
  match str with
  | c :: rest =>
      if dot c then
        match match_x08 rest with
        | Some n => Some (S n)
        | None => match_x08 str
        end
      else match_x08 str
  | [] => match_x08 str
  end.

(** [str.replace(/.?\x08/, '')]: the regular expression has no [g] flag, so
    only the leftmost match is replaced; start positions are tried from left
    to right and the string is returned unchanged when none matches. *)
Fixpoint replace_first (str : jsstring) : jsstring :=
  match match_here str with
  | Some n => drop n str
  | None =>
      match str with
      | [] => []
      | c :: rest => c :: replace_first rest
      end
  end.

Lemma indexOf_lower (str : jsstring) (c : code_unit) : (-1 <= indexOf str c)%Z.
Proof.
  induction str as [|x rest IH]; simpl; [lia |].
  destruct (x =? c); [lia |].
  destruct (Z.eqb_spec (indexOf rest c) (-1)); lia.
Qed.

Lemma indexOf_found (str : jsstring) (c : code_unit) :
  indexOf str c ≠ (-1)%Z ↔ c ∈ str.
Proof.
  induction str as [|x rest IH]; simpl.
  - split; [congruence | intros H; inversion H].
  - destruct (N.eqb_spec x c) as [->|Hne].
    + split; [intros _; left | discriminate].
    + rewrite elem_of_cons, <- IH.
      pose proof (indexOf_lower rest c) as Hlo.
      destruct (Z.eqb_spec (indexOf rest c) (-1)) as [E|E].
      * split; [congruence | intros [?|?]; congruence].
      * split; [intros _; right; exact E | intros _; lia].
Qed.

Lemma match_here_Some (str : jsstring) (n : nat) :
  match_here str = Some n → (1 <= n <= length str)%nat ∧ BS ∈ str.
Proof.
  unfold match_here, match_x08.
  destruct str as [|c [|d rest]]; simpl; [discriminate | |].
  - destruct (dot c), (N.eqb_spec c BS); intros [= <-]; subst;
      (split; [lia | left]).
  - destruct (dot c), (N.eqb_spec d BS), (N.eqb_spec c BS);
      intros [= <-]; subst; (split; [lia | set_solver]).
Qed.

Lemma match_here_None (str : jsstring) :
  match_here str = None → head str ≠ Some BS.
Proof.
  unfold match_here, match_x08.
  destruct str as [|c [|d rest]]; simpl; [discriminate | |];
    destruct (dot c); repeat case_match; try discriminate;
    intros _ [= ->]; discriminate.
Qed.

Lemma replace_first_shrinks (str : jsstring) :
  BS ∈ str → (length (replace_first str) < length str)%nat.
Proof.
  induction str as [|c rest IH]; intros Hin; [inversion Hin |].
  cbn [replace_first].
  destruct (match_here (c :: rest)) as [n|] eqn:Hm.
  - apply match_here_Some in Hm as [Hn _].
    rewrite length_drop. lia.
  - apply match_here_None in Hm. simpl in Hm.
    apply elem_of_cons in Hin as [E|Hin]; [congruence |].
    specialize (IH Hin). simpl. lia.
Qed.

(** The loop of [RemoveBackspaces].  Recursion is on the length of [str],
    which every pass of the body decreases. *)
Equations? RemoveBackspaces (str : jsstring) : jsstring by wf (length str) lt :=
  RemoveBackspaces str with Z.eq_dec (indexOf str BS) (-1)%Z => {
    | left _ => str
    | right Hloop => RemoveBackspaces (replace_first str) }.
Proof.
  by apply replace_first_shrinks, indexOf_found.
Qed.

(** ** Values, property reads and method calls

    The generators read properties of a [Record<string, string>] object and
    call a string method on the result.  A property read of an absent key
    evaluates to [undefined]; a method call on [undefined] throws a
    [TypeError]. *)
Inductive value : Type :=
  | undefined
  | Str (s : jsstring).

(** The outcome of evaluating an expression or a call: a value, or a thrown
    [TypeError]. *)
Inductive completion : Type :=
  | Normal (v : value)
  | TypeError.

(** [args.key] *)
Definition get (args : gmap jsstring jsstring) (key : jsstring) : value :=
  match args !! key with
  | Some s => Str s
  | None => undefined
  end.

(** [v ?? d] with a string literal on the right. *)
Definition nullish (v : value) (d : jsstring) : value :=
  match v with
  | undefined => Str d
  | Str s => Str s
  end.

(** [ToString], as applied to a substitution of a template literal. *)
Definition ToString (v : value) : jsstring :=
  match v with
  | undefined => js "undefined"
  | Str s => s
  end.

(** The character class [[$`\\!]]. *)
Definition special (c : code_unit) : bool :=
  (c =? 36) || (c =? 96) || (c =? 92) || (c =? 33).

(** Expansion of a replacement pattern for a match [matched] of a regular
    expression with one capture group, [capture1]: [$$] stands for a dollar
    sign, [$&] for the match, [$1] for the group, and a unit outside such a
    form for itself.  The forms that insert the text before or after the
    match are left out: the pattern of the source, a backslash followed by
    [$1], has none. *)
Fixpoint GetSubstitution (matched capture1 replacement : jsstring) : jsstring :=
  match replacement with
  | [] => []
  | c :: rest =>
      if c =? 36 then
        match rest with
        | d :: rest' =>
            if d =? 36 then 36 :: GetSubstitution matched capture1 rest'
            else if d =? 38 then matched ++ GetSubstitution matched capture1 rest'
            else if d =? 49 then capture1 ++ GetSubstitution matched capture1 rest'
            else c :: GetSubstitution matched capture1 rest
        | [] => [c]
        end
      else c :: GetSubstitution matched capture1 rest
  end.

(** [s.replace(/([$`\\!])/g, replacement)]: with the [g] flag every match is
    replaced, scanning left to right; a match is one unit of the class, and
    it is also the first capture group. *)
Fixpoint replace_all_special (replacement s : jsstring) : jsstring :=
  match s with
  | [] => []
  | c :: rest =>
      (if special c then GetSubstitution [c] [c] replacement else [c])
        ++ replace_all_special replacement rest
  end.

(** The method call [v.replace(/([$`\\!])/g, replacement)] on a value. *)
Definition replace_method (v : value) (replacement : jsstring) : completion :=
  match v with
  | Str s => Normal (Str (replace_all_special replacement s))
  | undefined => TypeError
  end.

(** ** Element types *)

(** [type Parameter = { id: string; label: string }] ([Parameter] itself is
    a reserved word here, hence the prime). *)
Record Parameter' : Type := { id : jsstring; label : jsstring }.

Module PromptElementType.
Section Class.
(** The value [new Date()] evaluates to: the reading of the system clock at
    the time of the call.  It is the only ambient state a generator of the
    catalogue reads. *)
Context {Date : Type}.

(** [type ParameterizedString = (args: Record<string, string>) => string] *)
Definition ParameterizedString : Type :=
  Date → gmap jsstring jsstring → completion.

Record t : Type := mk {
  name : jsstring;
  char : ParameterizedString;
  parameters : list Parameter';
  printable : bool;
  description : jsstring;
  preview : ParameterizedString;
}.

(** [typeof x === 'string' ? () => x : x] *)
Definition lift (x : jsstring + ParameterizedString) : ParameterizedString :=
  match x with
  | inl s => fun _ _ => Normal (Str s)
  | inr f => f
  end.

(** The constructor of the class. *)
Definition new (name : jsstring) (char : jsstring + ParameterizedString)
    (parameters : list Parameter') (printable : bool) (description : jsstring)
    (preview : jsstring + ParameterizedString) : t :=
  {| name := name;
     char := lift char;
     parameters := parameters;
     printable := printable;
     description := description;
     preview := lift preview |}.
End Class.
Arguments t : clear implicits.
Arguments ParameterizedString : clear implicits.
End PromptElementType.

Import PromptElementType (ParameterizedString, new).

Section Catalogue.
Context {Date : Type}.

(** [timeFormat(specifier)(date)] of the package d3-time-format, a
    dependency of the repository: it formats a date to a string. *)
Context (timeFormat : jsstring → Date → jsstring).

Definition PROMPT_ELEMENT_TYPES : list (PromptElementType.t Date) := [
  new (js "Current Date") (inl (js "$d")) [] true
    (js "The date, in your local format (as displayed in taskbar).")
    (inr (fun now _ => Normal (Str (timeFormat (js "%x") now))));
  new (js "Time with 100th-seconds") (inl (js "$t")) [] true
    (js "The time, in 24-hour format HH:MM:SS.ss with 100-th second precision (`echo %time%`).")
    (inr (fun now _ =>
      Normal (Str (RemoveBackspaces (timeFormat (js "%_H:%M:%S.%L") now ++ [BS])))));
  new (js "Time") (inl (js "$t$h$h$h")) [] true
    (js "The time, in 24-hour HH:MM:SS format.")
    (inr (fun now _ => Normal (Str (timeFormat (js "%_H:%M:%S") now))));
  new (js "Time (w/o seconds)") (inl (js "$t$h$h$h$h$h$h")) [] true
    (js "The time, in 24-hour HH:MM format.")
    (inr (fun now _ => Normal (Str (timeFormat (js "%_H:%M") now))));
  new (js "Username") (inl (js "%username%")) [] true
    (js "The username of the current user.") (inl (js "username"));
  new (js "Hostname") (inl (js "%computername%")) [] true
    (js "The hostname.") (inl (js "host-pc-name"));
  new (js "Remote Drive Name") (inl (js "$m")) [] true
    (js "Remote name associated with the current drive letter or empty string if current drive is not a network drive.")
    (inl (js "remote-drive-name"));
  new (js "Current Drive and Path") (inl (js "$p")) [] true
    (js "The current drive and path.") (inl (js "X:\Big Folder\current_folder"));
  new (js "Current Drive") (inl (js "$n")) [] true
    (js "The current drive letter.") (inl (js "X"));
  new (js "Newline") (inl (js "$_")) [] false (js "A newline.") (inl [10]);
  new (js "Error Level") (inl (js "%errorlevel%")) [] true
    (js "Error level of the last run command.") (inl (js "0"));
  new (js "Windows Version") (inl (js "$v")) [] true
    (js "Windows version number with build.")
    (inl (js "Microsoft Windows [Version 10.0.19045.3208]"));
  new (js "Environment Variable")
    (inr (fun _ args =>
      Normal (Str (js "%" ++ ToString (nullish (get args (js "command")) []) ++ js "%"))))
    [ {| id := js "envvar"; label := js "Env Var Name" |} ]
    true
    (js "A custom environment variable.")
    (inl (js "example output"));
  (* U+23B5, bottom square bracket *)
  new [9141] (inl (js "$s")) [] false (js "Space.") (inl (js " "));
  new (js "~") (inl (js "~")) [] true (js "Tilde.") (inl (js "~"));
  new (js "!") (inl (js "!")) [] true (js "Exclamation mark.") (inl (js "!"));
  new (js "?") (inl (js "?")) [] true (js "Question mark.") (inl (js "?"));
  new (js "@") (inl (js "@")) [] true (js "Ampersat.") (inl (js "@"));
  new (js "#") (inl (js "#")) [] true (js "Hash.") (inl (js "#"));
  new (js "$") (inl (js "$$")) [] true (js "Dollar sign.") (inl (js "$"));
  new (js "%") (inl (js "%")) [] true (js "Percent.") (inl (js "%"));
  new (js "^") (inl (js "^")) [] true (js "Caret.") (inl (js "^"));
  new (js "&") (inl (js "$a")) [] true (js "Ampersand.") (inl (js "&"));
  new (js "*") (inl (js "*")) [] true (js "Asterisk.") (inl (js "*"));
  new (js "(") (inl (js "$c")) [] true (js "Open parenthesis.") (inl (js "("));
  new (js ")") (inl (js "$f")) [] true (js "Close parenthesis.") (inl (js ")"));
  new (js "{") (inl (js "{")) [] true (js "Open curly bracket.") (inl (js "{"));
  new (js "}") (inl (js "}")) [] true (js "Close curly bracket.") (inl (js "}"));
  new (js "[") (inl (js "[")) [] true (js "Open bracket.") (inl (js "["));
  new (js "]") (inl (js "]")) [] true (js "Close bracket.") (inl (js "]"));
  new (js "-") (inl (js "-")) [] true (js "Hyphen.") (inl (js "-"));
  new (js "_") (inl (js "_")) [] true (js "Underscore.") (inl (js "_"));
  new (js "+") (inl (js "+")) [] true (js "Plus.") (inl (js "+"));
  new (js "=") (inl (js "$q")) [] true (js "Equal.") (inl (js "="));
  new (js "/") (inl (js "/")) [] true (js "Forward slash.") (inl (js "/"));
  new (js "\") (inl (js "\\")) [] true (js "Backslash.") (inl (js "\"));
  new (js "|") (inl (js "$b")) [] true (js "Pipe.") (inl (js "|"));
  new (js ",") (inl (js ",")) [] true (js "Comma.") (inl (js ","));
  new (js ".") (inl (js ".")) [] true (js "Period.") (inl (js "."));
  new (js ":") (inl (js ":")) [] true (js "Colon.") (inl (js ":"));
  new (js ";") (inl (js ";")) [] true (js "Semicolon.") (inl (js ";"));
  (* the double quote, unit 34 *)
  new [34] (inl [34]) [] true (js "Quotation mark.") (inl [34]);
  (* U+232B, erase to the left *)
  new [9003] (inl (js "$h")) [] false (js "Backspace.") (inl [BS]);
  new (js "'") (inl (js "'")) [] true (js "Single quote.") (inl (js "'"));
  new (js "<") (inl (js "$l")) [] true (js "Less than.") (inl (js "<"));
  new (js ">") (inl (js "$g")) [] true (js "Greater than.") (inl (js ">"));
  new (js "Text")
    (inr (fun _ args => replace_method (nullish (get args (js "text")) []) (js "\$1")))
    [ {| id := js "text"; label := js "Text" |} ]
    true
    (js "A custom text.")
    (inr (fun _ args => Normal (nullish (get args (js "text")) [])))
].
End Catalogue.

(** ** Prompt elements *)

Module PromptElement.
Section Class.
(** [Color] is the enumeration of [lib/enum/color]; the class only stores
    values of it. *)
Context {Date Color : Type}.

Record t : Type := mk {
  type : PromptElementType.t Date;
  parameters : gmap jsstring jsstring;
  (** [Record<displayAttribute, boolean>], an object keyed by attribute
      name *)
  attributes : gmap jsstring bool;
  backspaces : Z;
  (** [Color | null] *)
  foregroundColor : option Color;
  backgroundColor : option Color;
}.

(** The constructor: an element without any parameters or styling. *)
Definition new (type : PromptElementType.t Date) : t :=
  {| type := type;
     parameters := ∅;
     attributes :=
       <[js "bold" := false]> (<[js "dim" := false]> (<[js "italic" := false]>
       (<[js "underline" := false]> (<[js "blink" := false]>
       (<[js "reverse" := false]> (<[js "overline" := false]> ∅))))));
     backspaces := 0;
     foregroundColor := None;
     backgroundColor := None |}.
End Class.
Arguments t : clear implicits.
End PromptElement.

(** ** A clock and a formatter to run the catalogue on

    The part of d3-time-format that the catalogue calls, for its default
    (en-US) locale: a specifier is copied to the output, except that [%],
    an optional padding modifier and a directive letter are replaced by a
    field of the date.  A date is represented by its local-time fields. *)
Module D3.
Record Date : Type := {
  getFullYear : N;
  getMonth : N;      (* 0 .. 11 *)
  getDate : N;       (* 1 .. 31 *)
  getHours : N;
  getMinutes : N;
  getSeconds : N;
  getMilliseconds : N;
}.

Definition digits (n : N) : jsstring :=
  js (DecimalString.NilZero.string_of_uint (N.to_uint n)).

(** [pad(value, fill, width)] for a non-negative value; [fill] is a string
    of at most one unit. *)
Definition pad (value : N) (fill : jsstring) (width : nat) : jsstring :=
  let string := digits value in
  mjoin (replicate (width - length string) fill) ++ string.

(** [pads = {'-': '', '_': ' ', '0': '0'}] *)
Definition pads (c : code_unit) : option jsstring :=
  if c =? 45 then Some []
  else if c =? 95 then Some [32]
  else if c =? 48 then Some [48]
  else None.

Definition formats_table : Type := code_unit → option (Date → jsstring → jsstring).

(** The directives that do not depend on the locale. *)
Definition base_formats : formats_table := fun c =>
  if c =? 72 then Some (fun d p => pad (getHours d) p 2)                (* H *)
  else if c =? 77 then Some (fun d p => pad (getMinutes d) p 2)         (* M *)
  else if c =? 83 then Some (fun d p => pad (getSeconds d) p 2)         (* S *)
  else if c =? 76 then Some (fun d p => pad (getMilliseconds d) p 3)    (* L *)
  else if c =? 109 then Some (fun d p => pad (getMonth d + 1) p 2)      (* m *)
  else if c =? 100 then Some (fun d p => pad (getDate d) p 2)           (* d *)
  else if c =? 89 then Some (fun d p => pad (getFullYear d mod 10000) p 4) (* Y *)
  else if c =? 37 then Some (fun _ _ => [37])                           (* % *)
  else None.

(** One directive: the letter [c] formatted with padding [p]; a letter
    without a format stands for itself. *)
Definition directive (formats : formats_table) (c : code_unit) (p : jsstring)
    (date : Date) : jsstring :=
  match formats c with
  | Some format => format date p
  | None => [c]
  end.

(** [newFormat(specifier, formats)(date)] *)
Fixpoint newFormat (formats : formats_table) (specifier : jsstring) (date : Date)
    : jsstring :=
  match specifier with
  | [] => []
  | c :: rest =>
      if c =? 37 then
        match rest with
        | [] => []
        | c1 :: rest1 =>
            match pads c1 with
            | Some p =>
                match rest1 with
                | [] => []
                | c2 :: rest2 => directive formats c2 p date ++ newFormat formats rest2 date
                end
            | None =>
                directive formats c1 (if c1 =? 101 then [32] else [48]) date
                  ++ newFormat formats rest1 date
            end
        end
      else c :: newFormat formats rest date
  end.

(** The locale's date format, [%-m/%-d/%Y], behind the directive [x]. *)
Definition locale_date : jsstring := js "%-m/%-d/%Y".

Definition formats : formats_table := fun c =>
  if c =? 120 then Some (fun d _ => newFormat base_formats locale_date d)
  else base_formats c.

Definition timeFormat (specifier : jsstring) (date : Date) : jsstring :=
  newFormat formats specifier date.

(** Two readings of the clock, one minute apart: 9 February 2024 at 10:00
    and at 10:01. *)
Definition at_10_00 : Date :=
  {| getFullYear := 2024; getMonth := 1; getDate := 9; getHours := 10;
     getMinutes := 0; getSeconds := 0; getMilliseconds := 0 |}.

Definition at_10_01 : Date :=
  {| getFullYear := 2024; getMonth := 1; getDate := 9; getHours := 10;
     getMinutes := 1; getSeconds := 0; getMilliseconds := 0 |}.
End D3.

(** ** The specification's description of the helpers

    The two definitions of this part follow the wording of the
    specification, not the source; the theorems below compare them with the
    source's functions. *)

(** "Repeatedly find the first occurrence of the pattern `any single
    character (or none) immediately followed by one backspace control
    character' and delete that matched span, until no backspace control
    character remains."  [any] says which units count as a character of the
    pattern.  [first_span] is the start index and the width of the first
    occurrence. *)
Fixpoint first_span (any : code_unit → bool) (s : jsstring) : option (nat * nat) :=
  match s with
  | [] => None
  | c :: rest =>
      if any c && bool_decide (head rest = Some BS) then Some (0, 2)%nat
      else if bool_decide (c = BS) then Some (0, 1)%nat
      else prod_map S (λ w, w) <$> first_span any rest
  end.

Definition delete_span (s : jsstring) (span : nat * nat) : jsstring :=
  take (fst span) s ++ drop (fst span + snd span) s.

Fixpoint delete_spans (any : code_unit → bool) (rounds : nat) (s : jsstring) : jsstring :=
  match rounds with
  | O => s
  | S rounds' =>
      if bool_decide (BS ∈ s) then
        match first_span any s with
        | Some span => delete_spans any rounds' (delete_span s span)
        | None => s
        end
      else s
  end.

(** Every deletion removes at least one unit, so [length s] rounds are
    enough to reach a string without backspace. *)
Definition stripBackspaces (any : code_unit → bool) (s : jsstring) : jsstring :=
  delete_spans any (length s) s.

(** "Any single character", read literally. *)
Definition any_unit (c : code_unit) : bool := true.

(** "Prepend a backslash to every occurrence of the four characters [$],
    [`], [\], [!], leaving all other characters unchanged." *)
Fixpoint escapeText (text : jsstring) : jsstring :=
  match text with
  | [] => []
  | c :: rest =>
      if bool_decide (c ∈ js "$`\!") then 92 :: c :: escapeText rest
      else c :: escapeText rest
  end.

(** ** Notions used in the statements *)

(** The state of the loop after [k] passes of its body. *)
Definition after_passes (k : nat) (str : jsstring) : jsstring :=
  Nat.iter k replace_first str.

(** The loop started on [str] makes exactly [n] passes: its condition
    [str.indexOf('\b') !== -1] holds before each of them and fails after the
    last one. *)
Definition exits_after (n : nat) (str : jsstring) : Prop :=
  (∀ k, (k < n)%nat → indexOf (after_passes k str) BS ≠ (-1)%Z)
  ∧ indexOf (after_passes n str) BS = (-1)%Z.

(** The seven keys the constructor of [PromptElement] writes into
    [attributes], the display attributes of [lib/enum/ansi]. *)
Definition displayAttributes : list jsstring :=
  [js "bold"; js "dim"; js "italic"; js "underline"; js "blink"; js "reverse";
   js "overline"].

(** The elements whose preview shows the current date or time. *)
Definition clock_previews : list jsstring :=
  [js "Current Date"; js "Time with 100th-seconds"; js "Time";
   js "Time (w/o seconds)"].

(** * Properties *)

(** ** The loop of [RemoveBackspaces] *)

Lemma RemoveBackspaces_clean (s : jsstring) : BS ∉ s → RemoveBackspaces s = s.
Proof.
  intros Hs. simp RemoveBackspaces.
  destruct (Z.eq_dec (indexOf s BS) (-1)%Z) as [E|E]; simpl; [done |].
  by apply indexOf_found in E.
Qed.

Lemma RemoveBackspaces_pass (s : jsstring) :
  BS ∈ s → RemoveBackspaces s = RemoveBackspaces (replace_first s).
Proof.
  intros Hs. rewrite RemoveBackspaces_equation_1 at 1.
  destruct (Z.eq_dec (indexOf s BS) (-1)%Z) as [E|E]; simpl; [| done].
  apply indexOf_found in Hs. done.
Qed.

(** Induction along the passes of the loop. *)
Lemma RemoveBackspaces_ind (P : jsstring → Prop) :
  (∀ s, BS ∉ s → P s) →
  (∀ s, BS ∈ s → P (replace_first s) → P s) →
  ∀ s, P s.
Proof.
  intros Hclean Hpass s.
  remember (length s) as n eqn:Hn. revert s Hn.
  induction n as [n IH] using lt_wf_ind. intros s ->.
  destruct (decide (BS ∈ s)) as [Hin|Hnot]; [| by apply Hclean].
  apply Hpass; [done |].
  eapply IH; [| reflexivity]. by apply replace_first_shrinks.
Qed.

Lemma replace_first_clean (s : jsstring) : BS ∉ s → replace_first s = s.
Proof.
  induction s as [|c rest IH]; intros Hs; [done |].
  cbn [replace_first].
  destruct (match_here (c :: rest)) as [n|] eqn:Hm.
  - by apply match_here_Some in Hm as [_ ?].
  - f_equal. apply IH. set_solver.
Qed.

Lemma RemoveBackspaces_no_BS (s : jsstring) : BS ∉ RemoveBackspaces s.
Proof.
  induction s as [s Hs | s Hs IH] using RemoveBackspaces_ind.
  - by rewrite RemoveBackspaces_clean.
  - by rewrite RemoveBackspaces_pass.
Qed.

Lemma after_passes_S (k : nat) (s : jsstring) :
  after_passes (S k) s = after_passes k (replace_first s).
Proof. unfold after_passes. by rewrite Nat.iter_succ_r. Qed.

Lemma exits_after_pass (n : nat) (s : jsstring) :
  BS ∈ s → exits_after n (replace_first s) → exits_after (S n) s.
Proof.
  intros Hs [Hbefore Hlast]. split.
  - intros [|k] Hk; [by apply indexOf_found |].
    rewrite after_passes_S. apply Hbefore. lia.
  - by rewrite after_passes_S.
Qed.

Lemma RemoveBackspaces_passes (s : jsstring) :
  ∃ n, (n ≤ length s)%nat ∧ exits_after n s
       ∧ RemoveBackspaces s = after_passes n s.
Proof.
  induction s as [s Hs | s Hs (n & Hn & Hex & Heq)] using RemoveBackspaces_ind.
  - exists 0%nat. split; [lia |]. split.
    + split; [lia |]. simpl.
      destruct (Z.eq_dec (indexOf s BS) (-1)%Z) as [E|E]; [done |].
      by apply indexOf_found in E.
    + by apply RemoveBackspaces_clean.
  - exists (S n). pose proof (replace_first_shrinks s Hs).
    split; [lia |]. split; [by apply exits_after_pass |].
    by rewrite RemoveBackspaces_pass, after_passes_S.
Qed.

(** ** Refinement of the specification's stripper *)

Lemma match_x08_head (s : jsstring) :
  match_x08 s = if bool_decide (head s = Some BS) then Some 1%nat else None.
Proof.
  destruct s as [|c rest]; simpl; [done |].
  destruct (N.eqb_spec c BS) as [->|Hne]; [done |].
  rewrite bool_decide_eq_false_2; [done | congruence].
Qed.

Lemma match_x08_cons (c : code_unit) (rest : jsstring) :
  match_x08 (c :: rest) = if bool_decide (c = BS) then Some 1%nat else None.
Proof.
  simpl. destruct (N.eqb_spec c BS) as [->|Hne]; [done |].
  by rewrite bool_decide_eq_false_2.
Qed.

Lemma first_span_replace_first (s : jsstring) :
  match first_span dot s with
  | Some span => delete_span s span = replace_first s
  | None => BS ∉ s
  end.
Proof.
  induction s as [|c rest IH]; [by apply not_elem_of_nil |].
  cbn [first_span replace_first match_here].
  rewrite (match_x08_head rest), (match_x08_cons c rest).
  destruct (first_span dot rest) as [[i w]|];
    destruct (dot c), (bool_decide (head rest = Some BS));
    destruct (bool_decide_reflect (c = BS)) as [->|Hc]; simpl; try done;
    first [ unfold delete_span in *; simpl in *; by f_equal
          | rewrite not_elem_of_cons; by split ].
Qed.

Lemma delete_spans_enough (rounds : nat) (s : jsstring) :
  (length s ≤ rounds)%nat → delete_spans dot rounds s = RemoveBackspaces s.
Proof.
  revert s. induction rounds as [|rounds IH]; intros s Hlen.
  - destruct s; [| simpl in Hlen; lia].
    simpl. by rewrite RemoveBackspaces_clean by apply not_elem_of_nil.
  - simpl. case_bool_decide as Hin.
    + pose proof (first_span_replace_first s) as Hspan.
      pose proof (replace_first_shrinks s Hin).
      destruct (first_span dot s) as [span|]; [| done].
      rewrite Hspan, IH by lia. by rewrite <- RemoveBackspaces_pass.
    + by rewrite RemoveBackspaces_clean.
Qed.

Lemma first_span_ext (any1 any2 : code_unit → bool) (s : jsstring) :
  (∀ c, c ∈ s → any1 c = any2 c) → first_span any1 s = first_span any2 s.
Proof.
  induction s as [|c rest IH]; intros Hagree; [done |].
  simpl. rewrite (Hagree c) by left.
  rewrite IH; [done |]. intros c' Hc'. apply Hagree. by right.
Qed.

Lemma delete_span_subseteq (s : jsstring) (span : nat * nat) :
  delete_span s span ⊆ s.
Proof.
  intros c. unfold delete_span. rewrite elem_of_app.
  intros [H|H]; [by eapply subseteq_take | by eapply subseteq_drop].
Qed.

Lemma delete_spans_ext (any1 any2 : code_unit → bool) (rounds : nat) (s : jsstring) :
  (∀ c, c ∈ s → any1 c = any2 c) →
  delete_spans any1 rounds s = delete_spans any2 rounds s.
Proof.
  revert s. induction rounds as [|rounds IH]; intros s Hagree; [done |].
  simpl. rewrite (first_span_ext any1 any2 s Hagree).
  case_bool_decide; [| done].
  destruct (first_span any2 s) as [span|]; [| done].
  apply IH. intros c Hc. by apply Hagree, (delete_span_subseteq s span).
Qed.

Lemma RemoveBackspaces_leading_BS (s : jsstring) :
  RemoveBackspaces (BS :: s) = RemoveBackspaces s.
Proof.
  remember (length s) as n eqn:Hn. revert s Hn.
  induction n as [n IH] using lt_wf_ind. intros s ->.
  rewrite RemoveBackspaces_pass by left.
  destruct s as [|c rest]; [done |].
  destruct (decide (c = BS)) as [->|Hc].
  - change (replace_first (BS :: BS :: rest)) with rest.
    symmetry. apply (IH (length rest)); [simpl; lia | done].
  - f_equal. cbn [replace_first match_here]. rewrite match_x08_head.
    rewrite bool_decide_eq_false_2 by (simpl; congruence). done.
Qed.

(** C1 (as amended): [RemoveBackspaces] is the repeated deletion of the first
    span "one unit that is not a line terminator, or none, followed by a
    backspace" until no backspace is left; on a string without line
    terminators this is the deletion with "any single character"; a leading
    backspace is removed without taking any other unit with it; and the three
    sample values of the specification come out as stated. *)
Theorem RemoveBackspaces_deletes_first_spans :
  (∀ s, RemoveBackspaces s = stripBackspaces dot s)
  ∧ (∀ s, (∀ c, c ∈ s → LineTerminator c = false) →
          RemoveBackspaces s = stripBackspaces any_unit s)
  ∧ (∀ s, RemoveBackspaces (BS :: s) = RemoveBackspaces s)
  ∧ RemoveBackspaces [BS] = []
  ∧ RemoveBackspaces (js "ab" ++ [BS] ++ js "c") = js "ac"
  ∧ RemoveBackspaces (js "a" ++ [BS; BS]) = [].
Proof.
  assert (Hdot : ∀ s, RemoveBackspaces s = stripBackspaces dot s).
  { intros s. symmetry. by apply delete_spans_enough. }
  split; [done |]. split.
  { intros s Hs. rewrite Hdot. apply delete_spans_ext.
    intros c Hc. unfold dot, any_unit. by rewrite Hs. }
  split; [apply RemoveBackspaces_leading_BS |].
  repeat split; reflexivity.
Qed.

Lemma RemoveBackspaces_deletes_first_spans_witness :
  RemoveBackspaces (js "12:30" ++ [BS]) = stripBackspaces any_unit (js "12:30" ++ [BS])
  ∧ RemoveBackspaces (js "12:30" ++ [BS]) = js "12:3".
Proof.
  split; [| reflexivity].
  apply (proj1 (proj2 RemoveBackspaces_deletes_first_spans)).
  apply Forall_forall. vm_compute. repeat constructor.
Defined.

(** The sentence of the specification read literally ("any single
    character") fails on a line feed followed by a backspace: the code keeps
    the line feed, the described procedure deletes it. *)
Lemma RemoveBackspaces_keeps_line_feed :
  RemoveBackspaces (js "a" ++ [10; BS]) = js "a" ++ [10]
  ∧ stripBackspaces any_unit (js "a" ++ [10; BS]) = js "a"
  ∧ RemoveBackspaces (js "a" ++ [10; BS]) ≠ stripBackspaces any_unit (js "a" ++ [10; BS]).
Proof.
  split; [reflexivity |]. split; [reflexivity |].
  intros H. vm_compute in H. discriminate H.
Qed.

(** C3: the result of [RemoveBackspaces] holds no backspace, and stripping it
    again changes nothing. *)
Theorem RemoveBackspaces_idempotent (s : jsstring) :
  count_occ N.eq_dec (RemoveBackspaces s) BS = 0%nat
  ∧ RemoveBackspaces (RemoveBackspaces s) = RemoveBackspaces s.
Proof.
  pose proof (RemoveBackspaces_no_BS s) as Hno. split.
  - apply count_occ_not_In. by rewrite <- list_elem_of_In.
  - by apply RemoveBackspaces_clean.
Qed.

(** C4: the loop of [RemoveBackspaces] terminates: a pass of its body on a
    string that holds a backspace returns a strictly shorter string, so the
    loop exits after at most [length s] passes, with the value the function
    returns; on a string without backspace it exits before the first pass and
    returns the string itself. *)
Theorem RemoveBackspaces_terminates (s : jsstring) :
  (indexOf s BS ≠ (-1)%Z → (length (replace_first s) < length s)%nat)
  ∧ (∃ n, (n ≤ length s)%nat ∧ exits_after n s
          ∧ RemoveBackspaces s = after_passes n s)
  ∧ (BS ∉ s → exits_after 0 s ∧ RemoveBackspaces s = s).
Proof.
  split; [| split].
  - intros Hs. by apply replace_first_shrinks, indexOf_found.
  - apply RemoveBackspaces_passes.
  - intros Hs. split; [| by apply RemoveBackspaces_clean].
    split; [lia |]. simpl.
    destruct (Z.eq_dec (indexOf s BS) (-1)%Z) as [E|E]; [done |].
    by apply indexOf_found in E.
Qed.

Lemma RemoveBackspaces_terminates_witness :
  (length (replace_first (js "a" ++ [BS; BS])) < length (js "a" ++ [BS; BS]))%nat
  ∧ (exits_after 0 (js "abc") ∧ RemoveBackspaces (js "abc") = js "abc").
Proof.
  split.
  - apply (proj1 (RemoveBackspaces_terminates (js "a" ++ [BS; BS]))).
    vm_compute. discriminate.
  - apply (proj2 (proj2 (RemoveBackspaces_terminates (js "abc")))).
    apply (bool_decide_unpack (BS ∉ js "abc")). vm_compute. exact I.
Defined.

(** ** Prompt elements and the catalogue *)

Import PromptElementType (name, char, parameters, printable, description, preview).

(** Closed decidable facts, by evaluation of their decision procedure. *)
Ltac by_compute := apply (bool_decide_unpack _); vm_compute; exact I.

(** C8: an element built by the constructor of [PromptElement] refers to the
    type it was given, has no parameter value, has each of the seven display
    attributes set to [false] (and no other attribute), has a backspace count
    of zero and has neither colour. *)
Theorem new_PromptElement_defaults {Date Color : Type} (d : PromptElementType.t Date) :
  PromptElement.type (PromptElement.new (Color := Color) d) = d
  ∧ PromptElement.parameters (PromptElement.new (Color := Color) d) = ∅
  ∧ (∀ a, PromptElement.attributes (PromptElement.new (Color := Color) d) !! a
          = if bool_decide (a ∈ displayAttributes) then Some false else None)
  ∧ PromptElement.backspaces (PromptElement.new (Color := Color) d) = 0%Z
  ∧ PromptElement.foregroundColor (PromptElement.new (Color := Color) d) = None
  ∧ PromptElement.backgroundColor (PromptElement.new (Color := Color) d) = None.
Proof.
  repeat split. intros a. cbn [PromptElement.attributes PromptElement.new].
  unfold displayAttributes.
  case_bool_decide as Ha.
  - repeat (apply elem_of_cons in Ha as [-> | Ha]); try (by vm_compute).
    by apply elem_of_nil in Ha.
  - repeat (rewrite lookup_insert_ne; [| intros <-; apply Ha; by_compute]).
    apply lookup_empty.
Qed.

Lemma nullish_get_insert_empty (m : gmap jsstring jsstring) (key k : jsstring) :
  m !! key = None →
  nullish (get (<[key := []]> m) k) [] = nullish (get m k) [].
Proof.
  intros Hkey. unfold get. rewrite lookup_insert.
  case_decide as E; [subst k; by rewrite Hkey | done].
Qed.

Lemma nullish_get_string (m : gmap jsstring jsstring) (k : jsstring) :
  nullish (get m k) [] = Str (default [] (m !! k)).
Proof. unfold get. by destruct (m !! k). Qed.

(** Case analysis on the entries of the catalogue: one goal per entry. *)
Ltac each_type H :=
  unfold PROMPT_ELEMENT_TYPES in H;
  repeat (apply elem_of_cons in H as [-> | H]);
  [ .. | by apply elem_of_nil in H ].

Lemma GetSubstitution_backslash_group (c : code_unit) :
  GetSubstitution [c] [c] (js "\$1") = [92; c].
Proof. reflexivity. Qed.

Lemma special_four (c : code_unit) : special c = bool_decide (c ∈ js "$`\!").
Proof.
  unfold special. change (js "$`\!") with [36; 96; 92; 33].
  destruct (N.eqb_spec c 36) as [->|H1]; [done |].
  destruct (N.eqb_spec c 96) as [->|H2]; [done |].
  destruct (N.eqb_spec c 92) as [->|H3]; [done |].
  destruct (N.eqb_spec c 33) as [->|H4]; [done |].
  symmetry. apply bool_decide_eq_false_2.
  rewrite !elem_of_cons, elem_of_nil. tauto.
Qed.

Lemma replace_all_special_escapeText (s : jsstring) :
  replace_all_special (js "\$1") s = escapeText s.
Proof.
  induction s as [|c rest IH]; [done |].
  cbn [replace_all_special escapeText].
  rewrite GetSubstitution_backslash_group, IH, special_four.
  by destruct (bool_decide (c ∈ js "$`\!")).
Qed.

(** Discharge the entries of the catalogue whose name is not the one [H]
    asks for. *)
Ltac other_name H := exfalso; vm_compute in H; discriminate H.

Section CatalogueProperties.
Context {Date : Type} (timeFormat : jsstring → Date → jsstring).

(** C2: for the element named "Text" and a mapping that binds [text] to
    [v], the char generator returns [v] with a backslash put before every
    [$], [`], [\] and [!] and nothing else changed, and the preview
    generator returns [v] itself; the text [$HOME] is escaped to
    [\$HOME]. *)
Theorem Text_char_escapes_preview_raw (d : PromptElementType.t Date) (now : Date)
    (m : gmap jsstring jsstring) (v : jsstring) :
  d ∈ PROMPT_ELEMENT_TYPES timeFormat →
  name d = js "Text" →
  m !! js "text" = Some v →
  char d now m = Normal (Str (escapeText v))
  ∧ preview d now m = Normal (Str v)
  ∧ escapeText (js "$HOME") = js "\$HOME".
Proof.
  intros Hd Hname Hm. each_type Hd; try other_name Hname.
  cbn [char preview new PromptElementType.lift].
  unfold get. rewrite Hm. cbn [nullish replace_method].
  by rewrite replace_all_special_escapeText.
Qed.

(** C5 (as amended): the char generator of every entry of the catalogue
    returns the same value whatever the clock reads; so does the preview
    generator of every entry other than the four date and time elements;
    the preview of those four is a function of the clock reading alone
    (it ignores the parameter mapping). *)
Theorem generators_pure_except_clock_previews (d : PromptElementType.t Date) :
  d ∈ PROMPT_ELEMENT_TYPES timeFormat →
  (∀ m now1 now2, char d now1 m = char d now2 m)
  ∧ (name d ∉ clock_previews →
     ∀ m now1 now2, preview d now1 m = preview d now2 m)
  ∧ (name d ∈ clock_previews →
     ∀ now m1 m2, preview d now m1 = preview d now m2).
Proof.
  intros Hd. each_type Hd; (split; [done |]); split; intros Hn;
    first [ done
          | exfalso; apply Hn; by_compute
          | exfalso; revert Hn; by_compute ].
Qed.

(** C6: the char generator of the element named "Environment Variable"
    returns the value bound to [command], or the empty string when there is
    none, between two percent signs; the value bound to [envvar], the only
    parameter the element declares, has no influence, and a mapping that
    binds [envvar] alone gives two percent signs. *)
Theorem EnvironmentVariable_char_reads_command (d : PromptElementType.t Date)
    (now : Date) (m : gmap jsstring jsstring) :
  d ∈ PROMPT_ELEMENT_TYPES timeFormat →
  name d = js "Environment Variable" →
  char d now m = Normal (Str (js "%" ++ default [] (m !! js "command") ++ js "%"))
  ∧ (∀ v, char d now (<[js "envvar" := v]> m) = char d now m)
  ∧ (∀ v, char d now {[js "envvar" := v]} = Normal (Str (js "%%")))
  ∧ id <$> parameters d = [js "envvar"].
Proof.
  intros Hd Hname. each_type Hd; try other_name Hname.
  cbn [char parameters new PromptElementType.lift].
  assert (Hne : js "envvar" ≠ js "command") by (intros H; by vm_compute in H).
  rewrite !nullish_get_string. cbn [ToString].
  split; [done |]. split; [| split; [| done]]; intros v.
  - rewrite nullish_get_string. cbn [ToString]. by rewrite lookup_insert_ne.
  - rewrite nullish_get_string. cbn [ToString].
    by rewrite lookup_singleton_ne.
Qed.

(** C7: both generators of every entry of the catalogue return a string,
    for the empty mapping and for every other mapping; no call ends in an
    error.  An absent key is read as the empty string: binding it to the
    empty string changes neither result. *)
Theorem generators_total (d : PromptElementType.t Date) (now : Date)
    (m : gmap jsstring jsstring) :
  d ∈ PROMPT_ELEMENT_TYPES timeFormat →
  (∃ s, char d now ∅ = Normal (Str s))
  ∧ (∃ s, preview d now ∅ = Normal (Str s))
  ∧ (∃ s, char d now m = Normal (Str s))
  ∧ (∃ s, preview d now m = Normal (Str s))
  ∧ (∀ key, m !! key = None →
       char d now (<[key := []]> m) = char d now m
       ∧ preview d now (<[key := []]> m) = preview d now m).
Proof.
  intros Hd. each_type Hd;
    cbn [char preview new PromptElementType.lift];
    (do 4 (split; [rewrite ?nullish_get_string; by eexists |]));
    intros key Hkey; by rewrite ?nullish_get_insert_empty.
Qed.

(** C9: the names of the catalogue are pairwise distinct, none of them is
    empty, and the parameter ids of each single entry are pairwise
    distinct. *)
Theorem catalogue_names_distinct :
  NoDup (name <$> PROMPT_ELEMENT_TYPES timeFormat)
  ∧ Forall (λ d, name d ≠ [] ∧ NoDup (id <$> parameters d))
      (PROMPT_ELEMENT_TYPES timeFormat).
Proof. split; by_compute. Qed.

(** C10: an entry of the catalogue is not printable exactly when it is the
    space element (U+23B5), the "Newline" element or the backspace element
    (U+232B); these three are in the catalogue and every other entry is
    printable. *)
Theorem printable_false_exactly_whitespace :
  (∀ d, d ∈ PROMPT_ELEMENT_TYPES timeFormat →
    (printable d = false ↔ name d ∈ [[9141]; js "Newline"; [9003]]))
  ∧ name <$> filter (λ d, printable d = false) (PROMPT_ELEMENT_TYPES timeFormat)
    = [js "Newline"; [9141]; [9003]].
Proof.
  split; [| by vm_compute].
  apply Forall_forall. by_compute.
Qed.
End CatalogueProperties.

(** ** The catalogue run on the formatter of [D3] *)

(** The claim that every generator is pure fails for the preview of "Time
    (w/o seconds)", the entry at index 3: one minute later it returns another
    string. *)
Lemma time_preview_reads_the_clock :
  ¬ (∀ d : PromptElementType.t D3.Date,
       d ∈ PROMPT_ELEMENT_TYPES D3.timeFormat →
       ∀ m now1 now2,
         char d now1 m = char d now2 m ∧ preview d now1 m = preview d now2 m).
Proof.
  intros Hpure.
  destruct (Hpure _ (list_elem_of_lookup_2 (PROMPT_ELEMENT_TYPES D3.timeFormat) 3%nat _ eq_refl) ∅ D3.at_10_00 D3.at_10_01)
    as [_ Hpreview].
  vm_compute in Hpreview. discriminate Hpreview.
Qed.

Example time_previews :
  ∃ d, PROMPT_ELEMENT_TYPES D3.timeFormat !! 3%nat = Some d
       ∧ name d = js "Time (w/o seconds)"
       ∧ preview d D3.at_10_00 ∅ = Normal (Str (js "10:00"))
       ∧ preview d D3.at_10_01 ∅ = Normal (Str (js "10:01")).
Proof. eexists. split; [reflexivity |]. repeat split; by vm_compute. Qed.

Lemma Text_char_escapes_preview_raw_witness :
  ∃ d, d ∈ PROMPT_ELEMENT_TYPES D3.timeFormat
       ∧ char d D3.at_10_00 {[ js "text" := js "$HOME" ]} = Normal (Str (js "\$HOME"))
       ∧ preview d D3.at_10_00 {[ js "text" := js "$HOME" ]} = Normal (Str (js "$HOME")).
Proof.
  eexists. split; [apply (list_elem_of_lookup_2 _ 46%nat); reflexivity |].
  pose proof (Text_char_escapes_preview_raw D3.timeFormat _ D3.at_10_00
    {[ js "text" := js "$HOME" ]} (js "$HOME")
    (list_elem_of_lookup_2 (PROMPT_ELEMENT_TYPES D3.timeFormat) 46%nat _ eq_refl) eq_refl (lookup_singleton_eq _ _))
    as (Hchar & Hpreview & _).
  split; [exact Hchar | exact Hpreview].
Defined.

Lemma generators_pure_except_clock_previews_witness :
  (∃ d, d ∈ PROMPT_ELEMENT_TYPES D3.timeFormat
        ∧ name d = js "Username"
        ∧ preview d D3.at_10_00 ∅ = preview d D3.at_10_01 ∅)
  ∧ (∃ d, d ∈ PROMPT_ELEMENT_TYPES D3.timeFormat
          ∧ name d = js "Time"
          ∧ preview d D3.at_10_00 ∅ = preview d D3.at_10_00 {[ js "text" := js "x" ]}).
Proof.
  split; eexists.
  - split; [apply (list_elem_of_lookup_2 _ 4%nat); reflexivity |].
    split; [reflexivity |].
    apply (generators_pure_except_clock_previews D3.timeFormat _
      (list_elem_of_lookup_2 (PROMPT_ELEMENT_TYPES D3.timeFormat) 4%nat _ eq_refl)).
    by_compute.
  - split; [apply (list_elem_of_lookup_2 _ 2%nat); reflexivity |].
    split; [reflexivity |].
    apply (generators_pure_except_clock_previews D3.timeFormat _
      (list_elem_of_lookup_2 (PROMPT_ELEMENT_TYPES D3.timeFormat) 2%nat _ eq_refl)).
    by_compute.
Defined.

Lemma EnvironmentVariable_char_reads_command_witness :
  ∃ d, d ∈ PROMPT_ELEMENT_TYPES D3.timeFormat
       ∧ char d D3.at_10_00 {[ js "envvar" := js "PATH" ]} = Normal (Str (js "%%"))
       ∧ char d D3.at_10_00 {[ js "command" := js "PATH" ]} = Normal (Str (js "%PATH%")).
Proof.
  eexists. split; [apply (list_elem_of_lookup_2 _ 12%nat); reflexivity |].
  split.
  - apply (EnvironmentVariable_char_reads_command D3.timeFormat _ D3.at_10_00 ∅
      (list_elem_of_lookup_2 (PROMPT_ELEMENT_TYPES D3.timeFormat) 12%nat _ eq_refl)
      eq_refl).
  - pose proof (EnvironmentVariable_char_reads_command D3.timeFormat _ D3.at_10_00
      {[ js "command" := js "PATH" ]}
      (list_elem_of_lookup_2 (PROMPT_ELEMENT_TYPES D3.timeFormat) 12%nat _ eq_refl)
      eq_refl) as [Hchar _].
    rewrite lookup_singleton_eq in Hchar. exact Hchar.
Defined.

Lemma generators_total_witness :
  ∃ d, d ∈ PROMPT_ELEMENT_TYPES D3.timeFormat
       ∧ name d = js "Text"
       ∧ (∃ s, char d D3.at_10_00 ∅ = Normal (Str s))
       ∧ char d D3.at_10_00 (<[js "text" := []]> ∅) = char d D3.at_10_00 ∅.
Proof.
  eexists. split; [apply (list_elem_of_lookup_2 _ 46%nat); reflexivity |].
  split; [reflexivity |].
  pose proof (generators_total D3.timeFormat _ D3.at_10_00 ∅
    (list_elem_of_lookup_2 (PROMPT_ELEMENT_TYPES D3.timeFormat) 46%nat _ eq_refl))
    as (Hchar & _ & _ & _ & Hkey).
  split; [exact Hchar |].
  apply (Hkey (js "text")), lookup_empty.
Defined.

Lemma printable_false_exactly_whitespace_witness :
  ∃ d, d ∈ PROMPT_ELEMENT_TYPES D3.timeFormat
       ∧ name d = js "Newline" ∧ printable d = false.
Proof.
  eexists. split; [apply (list_elem_of_lookup_2 _ 9%nat); reflexivity |].
  split; [reflexivity |].
  apply (proj1 (printable_false_exactly_whitespace D3.timeFormat) _
    (list_elem_of_lookup_2 (PROMPT_ELEMENT_TYPES D3.timeFormat) 9%nat _ eq_refl)).
  by_compute.
Defined.

(** * Further properties *)

(** ** [RemoveBackspaces] as one pass over the string

    A reference algorithm for the statements below: the units are typed one
    by one onto a line; a backspace rubs out the unit typed last unless that
    unit is a line terminator (or the line is empty), and is itself never
    kept.  [typed] holds the line so far, last unit first. *)
Definition type_unit (typed : jsstring) (c : code_unit) : jsstring :=
  if c =? BS then
    match typed with
    | t :: typed' => if dot t then typed' else typed
    | [] => []
    end
  else c :: typed.

Definition typewriter (s : jsstring) : jsstring :=
  reverse (foldl type_unit [] s).

(** Nothing can be rubbed out: the unit typed last is a line terminator, or
    nothing was typed. *)
Definition stuck (typed : jsstring) : Prop :=
  match typed with
  | t :: _ => dot t = false
  | [] => True
  end.

Lemma type_unit_BS_stuck (typed : jsstring) :
  stuck typed → type_unit typed BS = typed.
Proof.
  unfold type_unit. change (BS =? BS) with true. cbv iota.
  destruct typed as [|t typed]; simpl; [done |]. by intros ->.
Qed.

Lemma type_unit_BS_cons (t : code_unit) (typed : jsstring) :
  type_unit (t :: typed) BS = if dot t then typed else t :: typed.
Proof. reflexivity. Qed.

Lemma type_unit_other (typed : jsstring) (c : code_unit) :
  c ≠ BS → type_unit typed c = c :: typed.
Proof.
  intros Hc. unfold type_unit.
  by destruct (N.eqb_spec c BS).
Qed.

Lemma foldl_type_unit_clean (typed s : jsstring) :
  BS ∉ s → foldl type_unit typed s = reverse s ++ typed.
Proof.
  revert typed. induction s as [|c rest IH]; intros typed Hs; [done |].
  apply not_elem_of_cons in Hs as [Hc Hrest].
  cbn [foldl]. rewrite type_unit_other by done.
  rewrite IH by done. by rewrite reverse_cons, <- app_assoc.
Qed.

Lemma foldl_type_unit_replace_first (typed s : jsstring) :
  (head s = Some BS → stuck typed) →
  foldl type_unit typed (replace_first s) = foldl type_unit typed s.
Proof.
  revert typed. induction s as [|c rest IH]; intros typed Hhead; [done |].
  cbn [replace_first match_here].
  rewrite (match_x08_head rest), (match_x08_cons c rest).
  destruct (bool_decide_reflect (c = BS)) as [->|Hc].
  - specialize (Hhead eq_refl).
    change (dot BS) with true. cbv iota.
    case_bool_decide as Hrest.
    + destruct rest as [|c' rest']; [done |]. injection Hrest as ->.
      cbn [drop foldl]; rewrite ?drop_0. by rewrite !(type_unit_BS_stuck typed).
    + cbn [drop foldl]; rewrite ?drop_0. by rewrite (type_unit_BS_stuck typed).
  - destruct (dot c) eqn:Hdot.
    + case_bool_decide as Hrest.
      * destruct rest as [|c' rest']; [done |]. injection Hrest as ->.
        cbn [drop foldl]; rewrite ?drop_0.
        rewrite (type_unit_other typed c), type_unit_BS_cons by done.
        by rewrite Hdot.
      * cbn [foldl]. rewrite (type_unit_other typed c) by done.
        apply IH. intros Hb. by destruct Hrest.
    + cbn [foldl]. rewrite (type_unit_other typed c) by done.
      apply IH. intros _. exact Hdot.
Qed.

Lemma RemoveBackspaces_typewriter_eq (s : jsstring) :
  RemoveBackspaces s = typewriter s.
Proof.
  induction s as [s Hs | s Hs IH] using RemoveBackspaces_ind.
  - rewrite RemoveBackspaces_clean by done. unfold typewriter.
    rewrite foldl_type_unit_clean by done.
    by rewrite app_nil_r, reverse_involutive.
  - rewrite RemoveBackspaces_pass, IH by done. unfold typewriter.
    by rewrite foldl_type_unit_replace_first.
Qed.

Lemma foldl_type_unit_RemoveBackspaces (s : jsstring) :
  foldl type_unit [] s = reverse (RemoveBackspaces s).
Proof.
  rewrite RemoveBackspaces_typewriter_eq. unfold typewriter.
  by rewrite reverse_involutive.
Qed.

Lemma foldl_type_unit_barrier (typed base s : jsstring) (c : code_unit) :
  LineTerminator c = true →
  foldl type_unit (typed ++ c :: base) s = foldl type_unit typed s ++ c :: base.
Proof.
  intros Hc. revert typed.
  induction s as [|x rest IH]; intros typed; [done |].
  cbn [foldl]. rewrite <- IH. f_equal.
  destruct (decide (x = BS)) as [->|Hx].
  - destruct typed as [|t typed]; simpl app; rewrite !type_unit_BS_cons.
    + unfold dot. by rewrite Hc.
    + by destruct (dot t).
  - by rewrite !type_unit_other.
Qed.

Lemma foldl_type_unit_length (typed s : jsstring) :
  (length (foldl type_unit typed s) + count_occ N.eq_dec s BS
     ≤ length typed + length s)%nat
  ∧ (length typed + length s
     ≤ length (foldl type_unit typed s) + 2 * count_occ N.eq_dec s BS)%nat.
Proof.
  revert typed. induction s as [|c rest IH]; intros typed; [simpl; lia |].
  cbn [foldl]. destruct (IH (type_unit typed c)) as [Hup Hlow].
  destruct (decide (c = BS)) as [->|Hc].
  - rewrite count_occ_cons_eq by done.
    assert (length (type_unit typed BS) ≤ length typed
            ∧ length typed ≤ S (length (type_unit typed BS)))%nat as [??].
    { destruct typed as [|t typed]; [simpl; lia |].
      rewrite type_unit_BS_cons. destruct (dot t); simpl; lia. }
    simpl length. lia.
  - rewrite count_occ_cons_neq by done.
    rewrite (type_unit_other typed c) in Hup, Hlow |- * by done. simpl in *. lia.
Qed.

Lemma replace_first_sublist (s : jsstring) : replace_first s `sublist_of` s.
Proof.
  induction s as [|c rest IH]; [done |].
  cbn [replace_first].
  destruct (match_here (c :: rest)); [apply sublist_drop | by apply sublist_skip].
Qed.

Lemma replace_first_LineTerminator (s : jsstring) :
  filter (λ c, LineTerminator c = true) (replace_first s)
  = filter (λ c, LineTerminator c = true) s.
Proof.
  induction s as [|c rest IH]; [done |].
  cbn [replace_first match_here].
  rewrite (match_x08_head rest), (match_x08_cons c rest).
  assert (HBS : ∀ l, filter (λ c, LineTerminator c = true) (BS :: l)
                     = filter (λ c, LineTerminator c = true) l).
  { intros l. by rewrite filter_cons_False. }
  destruct (bool_decide_reflect (c = BS)) as [->|Hc].
  - change (dot BS) with true. cbv iota.
    case_bool_decide as Hrest.
    + destruct rest as [|c' rest']; [done |]. injection Hrest as ->.
      cbn [drop]. by rewrite !HBS.
    + cbn [drop]. by rewrite HBS.
  - destruct (dot c) eqn:Hdot.
    + case_bool_decide as Hrest.
      * destruct rest as [|c' rest']; [done |]. injection Hrest as ->.
        cbn [drop]. rewrite filter_cons_False, HBS; [done |].
        unfold dot in Hdot. by destruct (LineTerminator c).
      * by rewrite !filter_cons, IH.
    + by rewrite !filter_cons, IH.
Qed.

(** X1: [RemoveBackspaces] computes what one pass from left to right would:
    every unit is typed onto a line, and a backspace rubs out the unit typed
    last, unless that unit is a line terminator or the line is empty. *)
Theorem RemoveBackspaces_single_pass (s : jsstring) :
  RemoveBackspaces s = typewriter s.
Proof. apply RemoveBackspaces_typewriter_eq. Qed.

(** X2: stripping a concatenation can be done in two stages: the left part
    first, then the result followed by the right part.  A right part without
    backspace is kept as it is. *)
Theorem RemoveBackspaces_app (s1 s2 : jsstring) :
  RemoveBackspaces (s1 ++ s2) = RemoveBackspaces (RemoveBackspaces s1 ++ s2)
  ∧ (BS ∉ s2 → RemoveBackspaces (s1 ++ s2) = RemoveBackspaces s1 ++ s2).
Proof.
  assert (Happ : RemoveBackspaces (s1 ++ s2)
                 = RemoveBackspaces (RemoveBackspaces s1 ++ s2)).
  { rewrite (RemoveBackspaces_typewriter_eq (s1 ++ s2)),
      (RemoveBackspaces_typewriter_eq (RemoveBackspaces s1 ++ s2)).
    unfold typewriter. rewrite !foldl_app.
    rewrite (foldl_type_unit_RemoveBackspaces s1).
    rewrite (foldl_type_unit_clean [] (RemoveBackspaces s1))
      by apply RemoveBackspaces_no_BS.
    by rewrite app_nil_r. }
  split; [done |]. intros Hs2. rewrite Happ.
  apply RemoveBackspaces_clean. rewrite elem_of_app.
  intros [H|H]; [by apply (RemoveBackspaces_no_BS s1) | done].
Qed.

Lemma RemoveBackspaces_app_witness :
  RemoveBackspaces ((js "ab" ++ [BS]) ++ js "cd") = js "a" ++ js "cd".
Proof.
  apply (proj2 (RemoveBackspaces_app (js "ab" ++ [BS]) (js "cd"))).
  by_compute.
Defined.

Lemma RemoveBackspaces_snoc_eq (s : jsstring) (c : code_unit) :
  RemoveBackspaces (s ++ [c]) =
    if decide (c = BS) then
      match last (RemoveBackspaces s) with
      | Some t => if dot t then removelast (RemoveBackspaces s) else RemoveBackspaces s
      | None => []
      end
    else RemoveBackspaces s ++ [c].
Proof.
  rewrite (RemoveBackspaces_typewriter_eq (s ++ [c])). unfold typewriter.
  rewrite foldl_app. cbn [foldl]. rewrite foldl_type_unit_RemoveBackspaces.
  destruct (RemoveBackspaces s) as [|x l _] using rev_ind.
  - case_decide as Hc; [by subst | by rewrite type_unit_other].
  - rewrite reverse_snoc, last_snoc, removelast_last.
    case_decide as Hc.
    + subst c. rewrite type_unit_BS_cons. destruct (dot x).
      * apply reverse_involutive.
      * by rewrite <- reverse_snoc, reverse_involutive.
    + rewrite type_unit_other by done.
      by rewrite <- reverse_snoc, reverse_cons, reverse_involutive.
Qed.

(** X3: the effect of one more unit at the end.  A unit other than the
    backspace is appended to the stripped string; a backspace removes the
    last unit of the stripped string when there is one and it is not a line
    terminator, and changes nothing otherwise. *)
Theorem RemoveBackspaces_snoc (s : jsstring) (c : code_unit) :
  RemoveBackspaces (s ++ [c]) =
    if decide (c = BS) then
      match last (RemoveBackspaces s) with
      | Some t => if dot t then removelast (RemoveBackspaces s) else RemoveBackspaces s
      | None => []
      end
    else RemoveBackspaces s ++ [c].
Proof. apply RemoveBackspaces_snoc_eq. Qed.

(** X4: a line terminator is a barrier: the parts of the string before and
    after it are stripped independently, and the terminator stays. *)
Theorem RemoveBackspaces_line_terminator (s1 s2 : jsstring) (c : code_unit) :
  LineTerminator c = true →
  RemoveBackspaces (s1 ++ c :: s2)
  = RemoveBackspaces s1 ++ c :: RemoveBackspaces s2.
Proof.
  intros Hc. assert (c ≠ BS) as Hne by (intros ->; discriminate Hc).
  rewrite (RemoveBackspaces_typewriter_eq (s1 ++ c :: s2)). unfold typewriter.
  rewrite foldl_app. cbn [foldl]. rewrite type_unit_other by done.
  pose proof (foldl_type_unit_barrier [] (foldl type_unit [] s1) s2 c Hc) as Hb.
  simpl app in Hb. rewrite Hb.
  rewrite !foldl_type_unit_RemoveBackspaces.
  by rewrite reverse_app, reverse_cons, !reverse_involutive, <- app_assoc.
Qed.

Lemma RemoveBackspaces_line_terminator_witness :
  RemoveBackspaces (js "ab" ++ [BS] ++ 10 :: [BS] ++ js "cd" ++ [BS])
  = js "a" ++ 10 :: js "c".
Proof.
  apply (RemoveBackspaces_line_terminator (js "ab" ++ [BS]) ([BS] ++ js "cd" ++ [BS]) 10).
  reflexivity.
Defined.

(** X5: [RemoveBackspaces] only deletes: its result is a subsequence of the
    input, in the same order; it deletes no line terminator; it deletes every
    backspace and, for each backspace, at most one other unit. *)
Theorem RemoveBackspaces_only_deletes (s : jsstring) :
  RemoveBackspaces s `sublist_of` s
  ∧ filter (λ c, LineTerminator c = true) (RemoveBackspaces s)
    = filter (λ c, LineTerminator c = true) s
  ∧ (length (RemoveBackspaces s) + count_occ N.eq_dec s BS ≤ length s)%nat
  ∧ (length s ≤ length (RemoveBackspaces s) + 2 * count_occ N.eq_dec s BS)%nat.
Proof.
  split; [| split].
  - induction s as [s Hs | s Hs IH] using RemoveBackspaces_ind.
    + by rewrite RemoveBackspaces_clean.
    + rewrite RemoveBackspaces_pass by done.
      etrans; [exact IH | apply replace_first_sublist].
  - induction s as [s Hs | s Hs IH] using RemoveBackspaces_ind.
    + by rewrite RemoveBackspaces_clean.
    + by rewrite RemoveBackspaces_pass, IH, replace_first_LineTerminator.
  - pose proof (foldl_type_unit_length [] s) as Hlen.
    rewrite foldl_type_unit_RemoveBackspaces, length_reverse in Hlen.
    simpl in Hlen. lia.
Qed.

(** ** The escaping of the "Text" element *)

Lemma replace_all_special_cons (c : code_unit) (rest : jsstring) :
  replace_all_special (js "\$1") (c :: rest)
  = (if special c then [92; c] else [c]) ++ replace_all_special (js "\$1") rest.
Proof.
  cbn [replace_all_special]. by rewrite GetSubstitution_backslash_group.
Qed.

Lemma replace_all_special_inj (v1 v2 : jsstring) :
  replace_all_special (js "\$1") v1 = replace_all_special (js "\$1") v2 → v1 = v2.
Proof.
  revert v2. induction v1 as [|c1 r1 IH]; intros [|c2 r2].
  - done.
  - rewrite replace_all_special_cons. simpl. by destruct (special c2).
  - rewrite replace_all_special_cons. simpl. by destruct (special c1).
  - rewrite !replace_all_special_cons.
    destruct (special c1) eqn:H1, (special c2) eqn:H2; simpl; intros Heq.
    + injection Heq as -> Heq. f_equal. by apply IH.
    + injection Heq as <- _. discriminate H2.
    + injection Heq as -> _. discriminate H1.
    + injection Heq as -> Heq. f_equal. by apply IH.
Qed.

(** X6: the escaping goes unit by unit: the escaped form of a concatenation
    is the concatenation of the escaped forms, and the escaped form of a text
    is longer than the text by the number of its units [$], [`], [\] and
    [!]. *)
Theorem replace_all_special_app_length (v1 v2 : jsstring) :
  replace_all_special (js "\$1") (v1 ++ v2)
  = replace_all_special (js "\$1") v1 ++ replace_all_special (js "\$1") v2
  ∧ length (replace_all_special (js "\$1") v1)
    = (length v1 + length (filter (λ c, special c = true) v1))%nat.
Proof.
  split.
  - induction v1 as [|c rest IH]; [done |].
    rewrite <- app_comm_cons, !replace_all_special_cons, IH.
    by rewrite app_assoc.
  - induction v1 as [|c rest IH]; [done |].
    rewrite replace_all_special_cons, length_app, IH, filter_cons.
    destruct (special c) eqn:Hc; case_decide; try done; simpl; lia.
Qed.

Section CatalogueFurther.
Context {Date : Type} (timeFormat : jsstring → Date → jsstring).

(** X7: the escaping loses nothing: two texts for which the "Text" element
    generates the same prompt string are the same text. *)
Theorem Text_char_injective (d : PromptElementType.t Date) (now : Date)
    (m1 m2 : gmap jsstring jsstring) (v1 v2 : jsstring) :
  d ∈ PROMPT_ELEMENT_TYPES timeFormat →
  name d = js "Text" →
  m1 !! js "text" = Some v1 →
  m2 !! js "text" = Some v2 →
  char d now m1 = char d now m2 →
  v1 = v2.
Proof.
  intros Hd Hname H1 H2. each_type Hd; try other_name Hname.
  cbn [char new PromptElementType.lift].
  unfold get. rewrite H1, H2. cbn [nullish replace_method].
  intros [= Heq]. by apply replace_all_special_inj.
Qed.

(** X8: the preview of "Time with 100th-seconds" is the time formatted with
    milliseconds, without its last unit (the digit of the thousandths): when
    the formatted time holds no backspace, the appended backspace removes
    exactly its last unit, unless that unit is a line terminator; an empty
    formatted time gives the empty string. *)
Theorem Time_100th_preview_drops_last_unit (d : PromptElementType.t Date)
    (now : Date) (m : gmap jsstring jsstring) :
  d ∈ PROMPT_ELEMENT_TYPES timeFormat →
  name d = js "Time with 100th-seconds" →
  BS ∉ timeFormat (js "%_H:%M:%S.%L") now →
  preview d now m =
    Normal (Str
      match last (timeFormat (js "%_H:%M:%S.%L") now) with
      | Some t =>
          if dot t then removelast (timeFormat (js "%_H:%M:%S.%L") now)
          else timeFormat (js "%_H:%M:%S.%L") now
      | None => []
      end).
Proof.
  intros Hd Hname Hclean. each_type Hd; try other_name Hname.
  cbn [preview new PromptElementType.lift].
  rewrite RemoveBackspaces_snoc_eq, RemoveBackspaces_clean by done.
  by rewrite decide_True.
Qed.

(** X9: a generator reads the parameter mapping only at the ids its element
    declares: two mappings that agree on the declared ids give the same
    preview, and the same prompt string for every element other than
    "Environment Variable"; in particular the elements that declare no
    parameter ignore the mapping. *)
Theorem generators_read_declared_parameters (d : PromptElementType.t Date)
    (now : Date) (m1 m2 : gmap jsstring jsstring) :
  d ∈ PROMPT_ELEMENT_TYPES timeFormat →
  (∀ p, p ∈ parameters d → m1 !! id p = m2 !! id p) →
  preview d now m1 = preview d now m2
  ∧ (name d ≠ js "Environment Variable" → char d now m1 = char d now m2).
Proof.
  intros Hd Hagree. each_type Hd;
    cbn [char preview parameters name new PromptElementType.lift] in *;
    try (split; [done | done]).
  specialize (Hagree _ (list_elem_of_here _ _)). cbn [id] in Hagree.
  unfold get. by rewrite Hagree.
Qed.
End CatalogueFurther.

(** ** The prompt strings of the parameterless elements *)

(** X11: an element that declares no parameter contributes a prompt string
    that does not depend on the clock or on the mapping, is not empty and
    consists of printable ASCII units only (no control character, no line
    terminator, no backspace). *)
Theorem parameterless_char_printable_ascii {Date : Type}
    (timeFormat : jsstring → Date → jsstring) (d : PromptElementType.t Date) :
  d ∈ PROMPT_ELEMENT_TYPES timeFormat →
  parameters d = [] →
  ∃ s, (∀ now m, char d now m = Normal (Str s))
       ∧ s ≠ []
       ∧ Forall (λ c, 32 ≤ c ∧ c ≤ 126) s.
Proof.
  intros Hd Hparams. each_type Hd; try discriminate Hparams;
    (eexists; split; [intros now m; reflexivity |]; split; by_compute).
Qed.


(** ** The separator labels *)

(** [PROMPT_ELEMENT_TYPES_SEPARATORS]: the labels before which the palette
    inserts a separator. *)
Definition PROMPT_ELEMENT_TYPES_SEPARATORS : list jsstring := [
  js "Username";
  js "Newline";
  js "Terminal";
  js "History Number";
  js "Prompt Sign";
  js "Git branch";
  [9141];
  js "Text"
].

(** X10: of the eight separator labels, four are names of the catalogue
    ("Username", "Newline", U+23B5 and "Text", in the order of the
    catalogue) and four name no entry ("Terminal", "History Number", "Prompt
    Sign", "Git branch"); no label is listed twice. *)
Theorem separators_in_catalogue {Date : Type} (timeFormat : jsstring → Date → jsstring) :
  filter (λ n, n ∈ PROMPT_ELEMENT_TYPES_SEPARATORS)
    (name <$> PROMPT_ELEMENT_TYPES timeFormat)
  = [js "Username"; js "Newline"; [9141]; js "Text"]
  ∧ filter (λ l, l ∉ name <$> PROMPT_ELEMENT_TYPES timeFormat)
      PROMPT_ELEMENT_TYPES_SEPARATORS
    = [js "Terminal"; js "History Number"; js "Prompt Sign"; js "Git branch"]
  ∧ NoDup PROMPT_ELEMENT_TYPES_SEPARATORS.
Proof.
  split; [by vm_compute |]. split; [by vm_compute | by_compute].
Qed.

(** ** The further properties on the formatter of [D3] *)

Lemma Text_char_injective_witness :
  js "a$b" = js "a$b".
Proof.
  apply (Text_char_injective D3.timeFormat _ D3.at_10_00
    {[ js "text" := js "a$b" ]} (<[ js "text" := js "a$b" ]> {[ js "other" := js "x" ]})
    (js "a$b") (js "a$b")
    (list_elem_of_lookup_2 (PROMPT_ELEMENT_TYPES D3.timeFormat) 46%nat _ eq_refl)
    eq_refl (lookup_singleton_eq _ _) (lookup_insert_eq _ _ _)).
  vm_compute. reflexivity.
Defined.

Lemma Time_100th_preview_drops_last_unit_witness :
  ∃ d, d ∈ PROMPT_ELEMENT_TYPES D3.timeFormat
       ∧ D3.timeFormat (js "%_H:%M:%S.%L") D3.at_10_01 = js "10:01:00.000"
       ∧ preview d D3.at_10_01 ∅ = Normal (Str (js "10:01:00.00")).
Proof.
  eexists. split; [apply (list_elem_of_lookup_2 _ 1%nat); reflexivity |].
  split; [reflexivity |].
  apply (Time_100th_preview_drops_last_unit D3.timeFormat _ D3.at_10_01 ∅
    (list_elem_of_lookup_2 (PROMPT_ELEMENT_TYPES D3.timeFormat) 1%nat _ eq_refl)
    eq_refl).
  by_compute.
Defined.

Lemma generators_read_declared_parameters_witness :
  ∃ d, d ∈ PROMPT_ELEMENT_TYPES D3.timeFormat
       ∧ name d = js "Text"
       ∧ preview d D3.at_10_00 {[ js "text" := js "hi" ]}
         = preview d D3.at_10_00 (<[ js "text" := js "hi" ]> {[ js "other" := js "x" ]}).
Proof.
  eexists. split; [apply (list_elem_of_lookup_2 _ 46%nat); reflexivity |].
  split; [reflexivity |].
  apply (generators_read_declared_parameters D3.timeFormat _ D3.at_10_00
    {[ js "text" := js "hi" ]} (<[ js "text" := js "hi" ]> {[ js "other" := js "x" ]})
    (list_elem_of_lookup_2 (PROMPT_ELEMENT_TYPES D3.timeFormat) 46%nat _ eq_refl)).
  intros p Hp. apply list_elem_of_singleton in Hp as ->. cbn [id].
  by rewrite lookup_singleton_eq, lookup_insert_eq.
Defined.

Lemma parameterless_char_printable_ascii_witness :
  ∃ d, d ∈ PROMPT_ELEMENT_TYPES D3.timeFormat
       ∧ name d = js "Newline"
       ∧ ∃ s, (∀ now m, char d now m = Normal (Str s)) ∧ s ≠ []
              ∧ Forall (λ c, 32 ≤ c ∧ c ≤ 126) s.
Proof.
  eexists. split; [apply (list_elem_of_lookup_2 _ 9%nat); reflexivity |].
  split; [reflexivity |].
  apply (parameterless_char_printable_ascii D3.timeFormat _
    (list_elem_of_lookup_2 (PROMPT_ELEMENT_TYPES D3.timeFormat) 9%nat _ eq_refl)).
  reflexivity.
Defined.
